(** * Webhook subscription payloads: saleor/graphql/webhook/subscription_payload.py

    A shallow embedding of the validator (validate_subscription_query,
    validate_query, check_document_is_single_subscription) and of the
    payload executor (get_event_payload, generate_payload_from_subscription),
    and of the request construction (initialize_request).

    The GraphQL backend (parsing, compilation against the schema, execution),
    the Promise library, the logger and format_error are collaborators of the
    module; they are gathered in the records Backend and Engine, and the
    theorems hold for every choice of them. *)

From Stdlib Require Import Ascii.
From stdpp Require Import gmap strings list fin_maps.

Open Scope string_scope.
Set Warnings "-register-all".

(** ** Python values and exceptions *)

(** Exceptions that the module raises, catches or lets through. *)
Inductive field_error := FieldError (message code : string).

Inductive exn :=
| ValueError
| GraphQLSyntaxError
| AssertionError
| AttributeError
| TypeError
| ValidationError (error_dict : list (string * field_error))
| OtherError (name : string).

(** A Python call either returns or raises. *)
Inductive outcome (A : Type) :=
| Return (a : A)
| Raise (e : exn).
Arguments Return {A} a.
Arguments Raise {A} e.

Global Instance outcome_ret : MRet outcome := fun A a => Return a.

Global Instance outcome_bind : MBind outcome := fun A B k m =>
  match m with
  | Return a => k a
  | Raise e => Raise e
  end.

(** The values that travel through an execution result: JSON-like data,
    where a dict is a finite map on strings, and promises.  A settled promise
    is fulfilled with a value or rejected with an exception; Promise.get()
    returns the former and raises the latter. *)
Inductive value :=
| VNone
| VBool (b : bool)
| VInt (n : Z)
| VStr (s : string)
| VList (l : list value)
| VDict (d : gmap string value)
| VPromise (p : promise)
with promise :=
| Fulfilled (v : value)
| Rejected (e : exn).

Definition is_promise (v : value) : bool :=
  match v with VPromise _ => true | _ => false end.

(** dict.get(key): the value bound to the key, None when it is missing. *)
Definition dict_get (d : gmap string value) (key : string) : value :=
  default VNone (d !! key).

(** obj[key] = x: only a dict takes a string subscript assignment. *)
Definition setitem (obj : value) (key : string) (x : value) : outcome value :=
  match obj with
  | VDict d => Return (VDict (<[key := x]> d))
  | _ => Raise TypeError
  end.

Definition has_key (obj : value) (key : string) : bool :=
  match obj with
  | VDict d => bool_decide (is_Some (d !! key))
  | _ => false
  end.

(** ** The GraphQL document AST (graphql.language.ast)

    Only what the module inspects is kept: arguments, directives, variable
    definitions and locations play no part in it. *)
Inductive Selection :=
| Field (alias : option string) (name : string)
        (selection_set : option SelectionSet)
| FragmentSpread (name : string)
| InlineFragment (type_condition : option string)
                 (selection_set : SelectionSet)
with SelectionSet :=
| mkSelectionSet (selections : list Selection).

Definition selections (s : SelectionSet) : list Selection :=
  match s with mkSelectionSet l => l end.

(** A top-level definition: a fragment, an operation ("query", "mutation"
    or "subscription"), or one of the type-system definitions. *)
Inductive definition :=
| FragmentDefinition (name type_condition : string)
                     (selection_set : SelectionSet)
| OperationDefinition (operation : string) (name : option string)
                      (selection_set : SelectionSet)
| TypeSystemDefinition (kind : string).

Record Document := { definitions : list definition }.

(** graphql.backend.GraphQLDocument; its schema, its printed text and its
    bound [execute] are not read here ([execute] is a field of Engine). *)
Record GraphQLDocument := { document_ast : Document }.

(** What callers hand over as a query: None, a string, or (for the backend)
    an already parsed document. *)
Inductive query_arg :=
| QNone
| QStr (s : string)
| QAst (ast : Document).

(** Python truth value of a query argument, as tested by [not query]. *)
Definition truthy (query : query_arg) : bool :=
  match query with
  | QNone => false
  | QStr s => negb (String.eqb s "")
  | QAst _ => true
  end.

(** ** Query validator *)

(** The loop of check_document_is_single_subscription, with the list
    [subscriptions] built so far. *)
Fixpoint check_definitions (defs : list definition)
    (subscriptions : list definition) : bool :=
  match defs with
  | [] => Nat.eqb (length subscriptions) 1
  | definition :: rest =>
      match definition with
      | FragmentDefinition _ _ _ => check_definitions rest subscriptions
      | OperationDefinition operation _ selection_set =>
          if String.eqb operation "subscription" then
            if negb (Nat.eqb (length (selections selection_set)) 1) then false
            else check_definitions rest (subscriptions ++ [definition])
          else false
      | TypeSystemDefinition _ => false
      end
  end.

Definition check_document_is_single_subscription
    (document : GraphQLDocument) : bool :=
  check_definitions (definitions (document_ast document)) [].

(** The GraphQL backend, [get_default_backend()] with the schema of the
    API: [parse] is graphql.parse, [document_from_string] is the backend's
    method applied to the schema. *)
Record Backend := {
  parse : query_arg → outcome Document;
  document_from_string : query_arg → outcome GraphQLDocument
}.

Section Validator.

Variable backend : Backend.

(** [WebhookErrorCode.INVALID.value]. *)
Variable WebhookErrorCode_INVALID_value : string.

Definition validate_subscription_query (query : query_arg) : outcome bool :=
  match document_from_string backend query with
  | Return document =>
      if negb (check_document_is_single_subscription document)
      then Return false
      else Return true
  | Raise ValueError | Raise GraphQLSyntaxError => Return false
  | Raise e => Raise e
  end.

Definition query_is_not_valid : exn :=
  ValidationError
    [("query", FieldError "Subscription query is not valid"
                          WebhookErrorCode_INVALID_value)].

Definition validate_query (query : query_arg) : outcome unit :=
  if negb (truthy query) then Return tt
  else
    is_valid ← validate_subscription_query query;
    if negb is_valid then Raise query_is_not_valid else Return tt.

End Validator.

(** ** Payload executor *)

Record App := { pk : Z }.

(** The dummy request of initialize_request, with the attribute [app] that
    generate_payload_from_subscription sets on it. *)
Record HttpRequest := {
  path : string;
  method : string;
  sync_event : bool;
  request_app : option App
}.

Definition set_app (request : HttpRequest) (a : option App) : HttpRequest :=
  {| path := path request; method := method request;
     sync_event := sync_event request; request_app := a |}.

(** A record handed to [logger.warning], with its [extra] mapping. *)
Record log_record := {
  msg : string;
  extra_query : query_arg;
  extra_app : option Z
}.

(** The state the call leaves behind, next to what it returns or raises. *)
Record run := {
  result : outcome value;
  request_after : HttpRequest;
  logged : list log_record
}.

(** The classes that format_error is told to recognise. *)
Inductive error_class := GraphQLError | PermissionDenied.

(** Promise.get(): the value of a fulfilled promise; the reason of a
    rejected one is raised. *)
Definition promise_get (p : promise) : outcome value :=
  match p with
  | Fulfilled v => Return v
  | Rejected e => Raise e
  end.

(** get_event_payload: a Promise is resolved with [.get()], anything else
    is returned as it is. *)
Definition get_event_payload (event : value) : outcome value :=
  match event with
  | VPromise p => promise_get p
  | _ => Return event
  end.

Section Executor.

(** The errors the engine collects, the root object of an event, and the
    context built from the request. *)
Variables Error Subscribable Context : Type.

(** graphql.execution.ExecutionResult: [data] is a mapping or None,
    [errors] a list or None. *)
Record ExecutionResult := {
  data : option (gmap string value);
  errors : option (list Error)
}.

(** What [document.execute(allow_subscriptions=True, ...)] hands back: an
    ExecutionResult, which has an attribute [errors] (the test
    [hasattr(results, "errors")]), or an observable, which has none;
    [emitted] is what the observable passes to a subscriber. *)
Inductive results :=
| Executed (r : ExecutionResult)
| Observable (emitted : list ExecutionResult).

(** The execution side: [execute] is the document's method, with the root
    and the context; [str_errors] is [str] on a list of errors. *)
Record Engine := {
  execute :
    GraphQLDocument → string * Subscribable → Context → outcome results;
  get_context_value : HttpRequest → Context;
  format_error : Error → list error_class → value;
  str_errors : option (list Error) → string
}.

Variable backend : Backend.
Variable engine : Engine.

Definition errors_truthy (errs : option (list Error)) : bool :=
  match errs with
  | Some (_ :: _) => true
  | _ => false
  end.

Definition errors_list (errs : option (list Error)) : list Error :=
  default [] errs.

(** Lines 174-180: the errors of the emitted result, formatted, are
    stored in the event payload under "errors" when there are any. *)
Definition attach_errors (event_payload : value)
    (errs : option (list Error)) : outcome value :=
  if errors_truthy errs then
    setitem event_payload "errors"
      (VList (map (fun error =>
                     format_error engine error [GraphQLError; PermissionDenied])
                  (errors_list errs)))
  else Return event_payload.

(** Lines 171-180: what is returned from the first emitted result. *)
Definition build_payload (payload_instance : ExecutionResult)
    : outcome value :=
  event ← match data payload_instance with
          | Some d => Return (dict_get d "event")
          | None => Raise AttributeError
          end;
  event_payload ← get_event_payload event;
  attach_errors event_payload (errors payload_instance).

Definition generate_payload_from_subscription
    (event_type : string) (subscribable_object : Subscribable)
    (subscription_query : query_arg) (request : HttpRequest)
    (app : option App) : run :=
  match parse backend subscription_query with
  | Raise e => {| result := Raise e; request_after := request; logged := [] |}
  | Return ast =>
  match document_from_string backend (QAst ast) with
  | Raise e => {| result := Raise e; request_after := request; logged := [] |}
  | Return document =>
  let app_id : option Z := pk <$> app in
  let request := set_app request app in
  match execute engine document (event_type, subscribable_object)
                (get_context_value engine request) with
  | Raise e => {| result := Raise e; request_after := request; logged := [] |}
  | Return (Executed r) =>
      {| result := Return VNone;
         request_after := request;
         logged :=
           [ {| msg := "Unable to build a payload for subscription. "
                       ++ String "010"%char "error: "
                       ++ str_errors engine (errors r);
                extra_query := subscription_query;
                extra_app := app_id |} ] |}
  | Return (Observable payload) =>
      match payload with
      | [] =>
          {| result := Return VNone;
             request_after := request;
             logged :=
               [ {| msg := "Subscription did not return a payload.";
                    extra_query := subscription_query;
                    extra_app := app_id |} ] |}
      | payload_instance :: _ =>
          {| result := build_payload payload_instance;
             request_after := request;
             logged := [] |}
      end
  end
  end
  end.

(** The collaborators carry the call as far as an execution outcome:
    the query parses, the backend compiles it, and the engine, run on the
    root (event_type, subscribable_object) with the context of the request
    that now carries the app, hands back [res]. *)
Definition executes_to (event_type : string)
    (subscribable_object : Subscribable) (subscription_query : query_arg)
    (request : HttpRequest) (app : option App) (res : results) : Prop :=
  ∃ ast document,
    parse backend subscription_query = Return ast
    ∧ document_from_string backend (QAst ast) = Return document
    ∧ execute engine document (event_type, subscribable_object)
              (get_context_value engine (set_app request app)) = Return res.

End Executor.

Arguments data {Error} _.
Arguments errors {Error} _.
Arguments Build_ExecutionResult {Error} _ _.
Arguments Executed {Error} _.
Arguments Observable {Error} _.
Arguments execute {Error Subscribable Context} _ _ _ _.
Arguments get_context_value {Error Subscribable Context} _ _.
Arguments format_error {Error Subscribable Context} _ _ _.
Arguments str_errors {Error Subscribable Context} _ _.
Arguments Build_Engine {Error Subscribable Context} _ _ _ _.
Arguments errors_truthy {Error} _.
Arguments errors_list {Error} _.
Arguments attach_errors {Error Subscribable Context} _ _ _.
Arguments build_payload {Error Subscribable Context} _ _.
Arguments generate_payload_from_subscription
  {Error Subscribable Context} _ _ _ _ _ _ _.
Arguments executes_to {Error Subscribable Context} _ _ _ _ _ _ _ _.

(** ** The structural rule, in the words of the specification

    Fragment definitions are ignored; every other definition must be an
    operation of kind "subscription" with exactly one selection, and there
    must be exactly one such operation. *)
Definition is_fragment (d : definition) : bool :=
  match d with
  | FragmentDefinition _ _ _ => true
  | _ => false
  end.

Definition is_single_selection_subscription (d : definition) : bool :=
  match d with
  | OperationDefinition operation _ selection_set =>
      String.eqb operation "subscription"
      && Nat.eqb (length (selections selection_set)) 1
  | _ => false
  end.

Definition single_subscription_rule (defs : list definition) : Prop :=
  (∀ d, d ∈ defs → is_fragment d = false →
        is_single_selection_subscription d = true)
  ∧ length (List.filter is_single_selection_subscription defs) = 1.

(** ** Sample collaborators

    A backend and an engine small enough to evaluate, used to run the module
    on concrete queries.  [sample_parse] gives the outcome of the GraphQL
    parser on the queries listed; the empty string has no definition and is
    a syntax error, as is every string not listed. *)
Definition event_field (alias : option string) (subfield : string) : Selection :=
  Field None "event"
        (Some (mkSelectionSet [Field alias subfield None])).

Definition subscription_of (sel : Selection) : definition :=
  OperationDefinition "subscription" None (mkSelectionSet [sel]).

Definition sample_parse (query : query_arg) : outcome Document :=
  match query with
  | QStr s =>
      if String.eqb s "subscription { event { id } }" then
        Return {| definitions := [subscription_of (event_field None "id")] |}
      else if String.eqb s "subscription { event { errors: id } }" then
        Return {| definitions :=
                    [subscription_of (event_field (Some "errors") "id")] |}
      else if String.eqb s "subscription { order { id } }" then
        Return {| definitions :=
                    [subscription_of
                       (Field None "order"
                          (Some (mkSelectionSet [Field None "id" None])))] |}
      else if String.eqb s "subscription { a } subscription { b }" then
        Return {| definitions :=
                    [subscription_of (Field None "a" None);
                     subscription_of (Field None "b" None)] |}
      else if String.eqb s "query { event { id } }" then
        Return {| definitions :=
                    [OperationDefinition "query" None
                       (mkSelectionSet [event_field None "id"])] |}
      else Raise GraphQLSyntaxError
  | _ => Raise AttributeError
  end.

(** The core backend: a parsed document is taken as it is, a string is
    parsed, anything else fails the backend's assertion. *)
Definition sample_document_from_string (query : query_arg)
    : outcome GraphQLDocument :=
  match query with
  | QAst ast => Return {| document_ast := ast |}
  | QStr s => ast ← sample_parse (QStr s); Return {| document_ast := ast |}
  | QNone => Raise AssertionError
  end.

Definition sample_backend : Backend :=
  {| parse := sample_parse;
     document_from_string := sample_document_from_string |}.

(** A resolver over dict-shaped objects: each selected field is read from
    the object and stored under its response name (its alias, or else its
    name). *)
Definition response_name (alias : option string) (name : string) : string :=
  default name alias.

Definition getattr (obj : value) (name : string) : value :=
  match obj with
  | VDict d => dict_get d name
  | _ => VNone
  end.

Fixpoint resolve_fields (sels : list Selection) (obj : value)
    : gmap string value :=
  match sels with
  | [] => ∅
  | Field alias name _ :: rest =>
      <[response_name alias name := getattr obj name]> (resolve_fields rest obj)
  | _ :: rest => resolve_fields rest obj
  end.

(** An engine for documents made of one subscription with one field: it
    emits once, the data keyed by that field; other documents come back as
    an ExecutionResult carrying an error. *)
Definition sample_execute (document : GraphQLDocument)
    (root : string * value) (context : HttpRequest)
    : outcome (results string) :=
  match definitions (document_ast document) with
  | [OperationDefinition operation _
       (mkSelectionSet [Field alias name (Some (mkSelectionSet subs))])] =>
      if String.eqb operation "subscription" then
        Return (Observable
          [ {| data := Some {[ response_name alias name :=
                                 VDict (resolve_fields subs (snd root)) ]};
               errors := None |} ])
      else
        Return (Executed
          {| data := None; errors := Some ["Not a subscription."] |})
  | _ =>
      Return (Executed
        {| data := None;
           errors := Some ["Must provide a single subscription."] |})
  end.

Definition sample_format_error (error : string) (handled : list error_class)
    : value :=
  VDict {[ "message" := VStr error ]}.

Definition sample_str_errors (errs : option (list string)) : string :=
  match errs with
  | None => "None"
  | Some l => "[" ++ String.concat ", " l ++ "]"
  end.

Definition sample_engine : Engine string value HttpRequest :=
  {| execute := sample_execute;
     get_context_value := fun request => request;
     format_error := sample_format_error;
     str_errors := sample_str_errors |}.

(** An engine whose observable emits a fixed sequence of results. *)
Definition emitting_engine (emitted : list (ExecutionResult string))
    : Engine string value HttpRequest :=
  {| execute := fun _ _ _ => Return (Observable emitted);
     get_context_value := fun request => request;
     format_error := sample_format_error;
     str_errors := sample_str_errors |}.

Definition sample_request : HttpRequest :=
  {| path := "/graphql/"; method := "GET"; sync_event := false;
     request_app := None |}.

Definition seven : option App := Some {| pk := 7 |}.

Definition event_42 : value := VDict {[ "id" := VStr "42" ]}.

Definition event_id_document : GraphQLDocument :=
  {| document_ast :=
       {| definitions := [subscription_of (event_field None "id")] |} |}.

(** Emitted results: the event behind a promise, a field refused next to
    one that succeeded, a selection of [order], the plain event, and a field
    aliased to [errors]. *)
Definition deferred_result : ExecutionResult string :=
  {| data := Some {[ "event" := VPromise (Fulfilled event_42) ]};
     errors := None |}.

Definition denied_fields : gmap string value :=
  <["secret" := VNone]> {[ "id" := VStr "42" ]}.

Definition denied_result : ExecutionResult string :=
  {| data := Some {[ "event" := VDict denied_fields ]};
     errors := Some ["You do not have permission to read secret."] |}.

Definition order_result : ExecutionResult string :=
  {| data := Some {[ "order" := VDict {[ "id" := VStr "42" ]} ]};
     errors := None |}.

Definition event_id_result : ExecutionResult string :=
  {| data := Some {[ "event" := event_42 ]}; errors := None |}.

Definition aliased_result : ExecutionResult string :=
  {| data := Some {[ "event" := VDict {[ "errors" := VStr "42" ]} ]};
     errors := None |}.

(** ** Request construction (initialize_request)

    The dummy request carries, next to the attributes kept in HttpRequest,
    the ones only initialize_request sets.  [LazyHost] is
    [SimpleLazyObject(get_host)], the host name looked up on first use;
    [plugins] is the lazy object that builds the plugins manager when it is
    first used. *)
Record Settings := {
  PLUGINS : list string;
  ENABLE_SSL : bool
}.

Inductive meta_value :=
| MetaStr (s : string)
| LazyHost.

Section Request.

Variables Requestor Time : Type.

Record PluginsManager := {
  manager_plugins : list string;
  requestor_getter : option Requestor
}.

Record DummyRequest := {
  http_request : HttpRequest;
  path_info : string;
  META : gmap string meta_value;
  requestor : option Requestor;
  request_time : Time;
  plugins : unit → PluginsManager
}.

(** [now] is the reading of [timezone.now()]. *)
Definition initialize_request (settings : Settings) (now : Time)
    (requestor : option Requestor) (sync_event : bool) : DummyRequest :=
  let _get_plugins requestor_getter :=
    {| manager_plugins := PLUGINS settings;
       requestor_getter := requestor_getter |} in
  let request_time := now in
  let META : gmap string meta_value :=
    <["SERVER_PORT" := MetaStr "80"]> {[ "SERVER_NAME" := LazyHost ]} in
  let META : gmap string meta_value :=
    if ENABLE_SSL settings then
      <["SERVER_PORT" := MetaStr "443"]>
        (<["HTTP_X_FORWARDED_PROTO" := MetaStr "https"]> META)
    else META in
  {| http_request :=
       {| path := "/graphql/"; method := "GET";
          sync_event := sync_event; request_app := None |};
     path_info := "/graphql/";
     META := META;
     requestor := requestor;
     request_time := request_time;
     plugins := fun _ => _get_plugins requestor |}.

End Request.

Arguments http_request {Requestor Time} _.
Arguments path_info {Requestor Time} _.
Arguments META {Requestor Time} _.
Arguments requestor {Requestor Time} _.
Arguments request_time {Requestor Time} _.
Arguments plugins {Requestor Time} _ _.
Arguments manager_plugins {Requestor} _.
Arguments requestor_getter {Requestor} _.
Arguments initialize_request {Requestor Time} _ _ _ _.

(** ** Further sample collaborators *)

(** A backend, and an engine, whose calls all raise [e]. *)
Definition raising_backend (e : exn) : Backend :=
  {| parse := fun _ => Raise e;
     document_from_string := fun _ => Raise e |}.

Definition raising_engine (e : exn) : Engine string value HttpRequest :=
  {| execute := fun _ _ _ => Raise e;
     get_context_value := fun request => request;
     format_error := sample_format_error;
     str_errors := sample_str_errors |}.

(** Emitted results: no data at all, an event that resolved to None next to
    its error, an event with a field aliased to [errors] next to an error,
    and an event behind a rejected promise. *)
Definition no_data_result : ExecutionResult string :=
  {| data := None; errors := Some ["Cannot return null."] |}.

Definition null_event_result : ExecutionResult string :=
  {| data := Some {[ "event" := VNone ]};
     errors := Some ["You do not have permission to read event."] |}.

Definition aliased_denied_result : ExecutionResult string :=
  {| data := Some {[ "event" :=
                       VDict (<["id" := VStr "42"]>
                                {[ "errors" := VStr "mine" ]}) ]};
     errors := Some ["You do not have permission to read secret."] |}.

Definition rejected_result : ExecutionResult string :=
  {| data := Some {[ "event" := VPromise (Rejected (OtherError "DoesNotExist")) ]};
     errors := None |}.

Definition fragment_on_event : definition :=
  FragmentDefinition "Ids" "Event" (mkSelectionSet [Field None "id" None]).

Definition non_fragment (d : definition) : bool := negb (is_fragment d).

Definition sample_settings (ssl : bool) : Settings :=
  {| PLUGINS := ["saleor.plugins.webhook.plugin.WebhookPlugin"];
     ENABLE_SSL := ssl |}.

(** * Properties of the validator *)

(** The head of the list is neither a fragment nor a one-selection
    subscription: [HF] cannot hold. *)
Ltac head_rejected HF :=
  let Hd := fresh "Hd" in
  inversion HF as [| ? ? Hd _]; simpl in Hd;
  repeat match goal with
         | E : _ = ?b |- _ =>
             is_constructor b; assert_fails (constr_eq E Hd); rewrite E in Hd
         end;
  discriminate Hd.

Lemma is_single_selection_subscription_inv d :
  is_single_selection_subscription d = true →
  ∃ name selection_set,
    d = OperationDefinition "subscription" name selection_set
    ∧ length (selections selection_set) = 1.
Proof.
  destruct d as [| operation name selection_set |]; simpl; try discriminate.
  intros [Hop Hlen]%andb_prop.
  apply String.eqb_eq in Hop. apply Nat.eqb_eq in Hlen.
  subst operation. eauto.
Qed.

(** The loop accepts exactly when every definition is a fragment or a
    one-selection subscription, and the subscriptions seen before and during
    the loop number one. *)
Lemma check_definitions_spec defs : ∀ subscriptions,
  check_definitions defs subscriptions = true ↔
  Forall (λ d, is_fragment d || is_single_selection_subscription d = true) defs
  ∧ length subscriptions
    + length (List.filter is_single_selection_subscription defs) = 1.
Proof.
  induction defs as [| d defs IH]; intros subscriptions; simpl.
  - rewrite Nat.eqb_eq, Nat.add_0_r.
    split; [intros H; split; [constructor | done] | by intros [_ H]].
  - destruct d as [name tc ss | operation name ss | kind]; simpl.
    + rewrite IH. split.
      * intros [HF Hn]. split; [by constructor | done].
      * intros [HF Hn]. by inversion_clear HF.
    + destruct (String.eqb operation "subscription") eqn:Hop; simpl.
      * destruct (Nat.eqb (length (selections ss)) 1) eqn:Hlen; simpl.
        -- rewrite IH, length_app. simpl. split.
           ++ intros [HF Hn]. split; [| lia].
              constructor; [simpl; by rewrite Hop, Hlen | done].
           ++ intros [HF Hn]. inversion_clear HF. split; [done | lia].
        -- split; [done |]. intros [HF _]. head_rejected HF.
      * split; [done |]. intros [HF _]. head_rejected HF.
    + split; [done |]. intros [HF _]. head_rejected HF.
Qed.

Lemma check_document_is_single_subscription_spec document :
  check_document_is_single_subscription document = true ↔
  single_subscription_rule (definitions (document_ast document)).
Proof.
  unfold check_document_is_single_subscription, single_subscription_rule.
  rewrite check_definitions_spec, Forall_forall. simpl.
  split; intros [Hall Hone]; (split; [| done]); intros d Hd.
  - intros Hfrag. specialize (Hall d Hd). by rewrite Hfrag in Hall.
  - destruct (is_fragment d) eqn:Hfrag; [done |]. by apply Hall.
Qed.

(** The rule turns away each of the shapes the specification lists. *)
Lemma rule_rejects_other_operation defs operation name selection_set :
  OperationDefinition operation name selection_set ∈ defs →
  operation ≠ "subscription" →
  ¬ single_subscription_rule defs.
Proof.
  intros Hin Hop [Hall _]. specialize (Hall _ Hin eq_refl). simpl in Hall.
  apply andb_prop in Hall as [Heq%String.eqb_eq _]. done.
Qed.

Lemma rule_rejects_selection_count defs name selection_set :
  OperationDefinition "subscription" name selection_set ∈ defs →
  length (selections selection_set) ≠ 1 →
  ¬ single_subscription_rule defs.
Proof.
  intros Hin Hlen [Hall _]. specialize (Hall _ Hin eq_refl). simpl in Hall.
  by apply Nat.eqb_eq in Hall.
Qed.

Section ValidatorProperties.

Variable backend : Backend.
Variable INVALID_value : string.

(** Once the backend has produced a document, the validator returns, and
    what it returns is the verdict of the structural check. *)
Lemma validate_subscription_query_parsed query document :
  document_from_string backend query = Return document →
  validate_subscription_query backend query
  = Return (check_document_is_single_subscription document).
Proof.
  intros Hdoc. unfold validate_subscription_query.
  rewrite Hdoc. by destruct (check_document_is_single_subscription document).
Qed.

(** C2: for a query that the backend parses into a document, the validator
    returns true exactly when the document obeys the single-subscription
    rule (fragments apart, every definition is a subscription operation
    with one selection, and there is one such operation), and returns false
    exactly when it does not. *)
Theorem validate_subscription_query_iff_rule query document :
  document_from_string backend query = Return document →
  (validate_subscription_query backend query = Return true
   ↔ single_subscription_rule (definitions (document_ast document)))
  ∧ (validate_subscription_query backend query = Return false
     ↔ ¬ single_subscription_rule (definitions (document_ast document))).
Proof.
  intros Hdoc. rewrite (validate_subscription_query_parsed _ _ Hdoc).
  rewrite <- check_document_is_single_subscription_spec.
  destruct (check_document_is_single_subscription document);
    split; split; try done; try congruence.
Qed.

(** C8: when the backend raises GraphQLSyntaxError on the query, the
    validator returns false; it raises nothing. *)
Theorem validate_subscription_query_syntax_error query :
  document_from_string backend query = Raise GraphQLSyntaxError →
  validate_subscription_query backend query = Return false.
Proof.
  intros Hsyn. unfold validate_subscription_query. by rewrite Hsyn.
Qed.

(** C3, as the code has it: the wrapper validate_query returns at once,
    without calling the backend, on None and on the empty string. *)
Theorem validate_query_no_filter :
  validate_query backend INVALID_value QNone = Return tt
  ∧ validate_query backend INVALID_value (QStr "") = Return tt.
Proof. split; reflexivity. Qed.

(** C9: provided the backend itself raises no ValidationError, validate_query
    raises the error scoped to "query", with the message "Subscription
    query is not valid" and the code INVALID, exactly when the query is
    truthy and the validator returns false; on a falsy query (None or the
    empty string) it returns without raising. *)
Theorem validate_query_raises_iff query :
  (∀ q error_dict,
     document_from_string backend q ≠ Raise (ValidationError error_dict)) →
  (validate_query backend INVALID_value query
     = Raise (ValidationError
                [("query", FieldError "Subscription query is not valid"
                                      INVALID_value)])
   ↔ truthy query = true
     ∧ validate_subscription_query backend query = Return false)
  ∧ (truthy query = false →
     validate_query backend INVALID_value query = Return tt).
Proof.
  intros Hbackend.
  unfold validate_query, validate_subscription_query, query_is_not_valid.
  destruct (truthy query); simpl;
    [| split; [split; [done | by intros [? _]] | done]].
  split; [| done].
  specialize (Hbackend query).
  destruct (document_from_string backend query) as [document | e]; simpl.
  - destruct (check_document_is_single_subscription document); simpl;
      split; try done; by intros [_ ?].
  - destruct e; simpl; try (split; [done | by intros [_ ?]]); try done.
    split; [| by intros [_ ?]]. intros Heq. by destruct (Hbackend error_dict).
Qed.

End ValidatorProperties.

(** * Properties of the payload executor *)

Section ExecutorProperties.

Variables Error Subscribable Context : Type.
Variable backend : Backend.
Variable engine : Engine Error Subscribable Context.

Variables (event_type : string) (subscribable_object : Subscribable).
Variables (subscription_query : query_arg) (request : HttpRequest).
Variable app : option App.

(** The three ways the call ends once the engine has answered. *)
Lemma generate_executed r :
  executes_to backend engine event_type subscribable_object
              subscription_query request app (Executed r) →
  generate_payload_from_subscription backend engine event_type
    subscribable_object subscription_query request app =
    {| result := Return VNone;
       request_after := set_app request app;
       logged :=
         [ {| msg := "Unable to build a payload for subscription. "
                     ++ String "010"%char "error: "
                     ++ str_errors engine (errors r);
              extra_query := subscription_query;
              extra_app := pk <$> app |} ] |}.
Proof.
  intros (ast & document & Hparse & Hdoc & Hexec).
  unfold generate_payload_from_subscription.
  by rewrite Hparse, Hdoc, Hexec.
Qed.

Lemma generate_silent :
  executes_to backend engine event_type subscribable_object
              subscription_query request app (Observable []) →
  generate_payload_from_subscription backend engine event_type
    subscribable_object subscription_query request app =
    {| result := Return VNone;
       request_after := set_app request app;
       logged :=
         [ {| msg := "Subscription did not return a payload.";
              extra_query := subscription_query;
              extra_app := pk <$> app |} ] |}.
Proof.
  intros (ast & document & Hparse & Hdoc & Hexec).
  unfold generate_payload_from_subscription.
  by rewrite Hparse, Hdoc, Hexec.
Qed.

Lemma generate_emitted payload_instance rest :
  executes_to backend engine event_type subscribable_object
              subscription_query request app
              (Observable (payload_instance :: rest)) →
  generate_payload_from_subscription backend engine event_type
    subscribable_object subscription_query request app =
    {| result := build_payload engine payload_instance;
       request_after := set_app request app;
       logged := [] |}.
Proof.
  intros (ast & document & Hparse & Hdoc & Hexec).
  unfold generate_payload_from_subscription.
  by rewrite Hparse, Hdoc, Hexec.
Qed.

Lemma attach_errors_none event_payload errs :
  errors_truthy errs = false →
  attach_errors engine event_payload errs = Return event_payload.
Proof. intros H. unfold attach_errors. by rewrite H. Qed.

Lemma attach_errors_some event_payload errs payload :
  errors_truthy errs = true →
  attach_errors engine event_payload errs = Return payload →
  ∃ fields,
    event_payload = VDict fields
    ∧ payload
      = VDict (<["errors" :=
                   VList (map (λ error, format_error engine error
                                          [GraphQLError; PermissionDenied])
                              (errors_list errs))]> fields).
Proof.
  intros H. unfold attach_errors. rewrite H.
  destruct event_payload; simpl; try discriminate.
  intros [= <-]. eauto.
Qed.

(** C4: when the engine hands back an ExecutionResult (the object that
    has an [errors] attribute) instead of an observable, the call returns
    None, raises nothing, and has logged one warning whose context holds
    the query text and the id of the app. *)
Theorem top_level_errors_give_no_payload r :
  executes_to backend engine event_type subscribable_object
              subscription_query request app (Executed r) →
  result (generate_payload_from_subscription backend engine event_type
            subscribable_object subscription_query request app)
    = Return VNone
  ∧ ∃ warning,
      logged (generate_payload_from_subscription backend engine event_type
                subscribable_object subscription_query request app)
        = [warning]
      ∧ msg warning
        = "Unable to build a payload for subscription. "
          ++ String "010"%char "error: " ++ str_errors engine (errors r)
      ∧ extra_query warning = subscription_query
      ∧ extra_app warning = pk <$> app.
Proof.
  intros H. rewrite (generate_executed r H). simpl. eauto 6.
Qed.

(** C5: when the observable emits nothing, the call returns None (not an
    empty mapping), raises nothing, and has logged one warning. *)
Theorem no_emitted_result_gives_no_payload :
  executes_to backend engine event_type subscribable_object
              subscription_query request app (Observable []) →
  result (generate_payload_from_subscription backend engine event_type
            subscribable_object subscription_query request app)
    = Return VNone
  ∧ result (generate_payload_from_subscription backend engine event_type
              subscribable_object subscription_query request app)
    ≠ Return (VDict ∅)
  ∧ ∃ warning,
      logged (generate_payload_from_subscription backend engine event_type
                subscribable_object subscription_query request app)
        = [warning]
      ∧ msg warning = "Subscription did not return a payload."
      ∧ extra_query warning = subscription_query
      ∧ extra_app warning = pk <$> app.
Proof.
  intros H. rewrite (generate_silent H). simpl.
  split; [done |]. split; [discriminate |]. eauto 6.
Qed.

(** C10: extraction reads the key "event" and nothing else: when the data
    of the first emitted result has no key "event" and the result has no
    errors, the call returns None, whatever else the data holds. *)
Theorem payload_is_read_from_event_key payload_instance rest d :
  executes_to backend engine event_type subscribable_object
              subscription_query request app
              (Observable (payload_instance :: rest)) →
  data payload_instance = Some d →
  d !! "event" = None →
  errors_truthy (errors payload_instance) = false →
  result (generate_payload_from_subscription backend engine event_type
            subscribable_object subscription_query request app)
    = Return VNone.
Proof.
  intros H Hdata Hevent Herrs. rewrite (generate_emitted _ _ H). simpl.
  unfold build_payload, dict_get. rewrite Hdata, Hevent. simpl.
  by apply attach_errors_none.
Qed.

(** C1, as the code has it: the call returns the value bound to "event"
    in the data of the first emitted result, not the data mapping keyed
    by "event"; with no errors that value is returned unchanged. *)
Theorem payload_is_the_event_value payload_instance rest d v :
  executes_to backend engine event_type subscribable_object
              subscription_query request app
              (Observable (payload_instance :: rest)) →
  data payload_instance = Some d →
  d !! "event" = Some v →
  is_promise v = false →
  errors_truthy (errors payload_instance) = false →
  result (generate_payload_from_subscription backend engine event_type
            subscribable_object subscription_query request app)
    = Return v.
Proof.
  intros H Hdata Hevent Hplain Herrs. rewrite (generate_emitted _ _ H). simpl.
  unfold build_payload, dict_get. rewrite Hdata, Hevent. simpl.
  destruct v; try discriminate; simpl; by apply attach_errors_none.
Qed.


(** A rejected promise makes the call raise the rejection. *)
Lemma rejected_event_is_raised payload_instance rest d e :
  executes_to backend engine event_type subscribable_object
              subscription_query request app
              (Observable (payload_instance :: rest)) →
  data payload_instance = Some d →
  d !! "event" = Some (VPromise (Rejected e)) →
  result (generate_payload_from_subscription backend engine event_type
            subscribable_object subscription_query request app)
    = Raise e.
Proof.
  intros H Hdata Hevent. rewrite (generate_emitted _ _ H). simpl.
  unfold build_payload, dict_get. by rewrite Hdata, Hevent.
Qed.

(** With errors to report, an event value that is not a mapping (None when
    the event itself failed) makes the call raise TypeError. *)
Lemma errors_on_missing_event_raise payload_instance rest d :
  executes_to backend engine event_type subscribable_object
              subscription_query request app
              (Observable (payload_instance :: rest)) →
  data payload_instance = Some d →
  d !! "event" = None →
  errors_truthy (errors payload_instance) = true →
  result (generate_payload_from_subscription backend engine event_type
            subscribable_object subscription_query request app)
    = Raise TypeError.
Proof.
  intros H Hdata Hevent Herrs. rewrite (generate_emitted _ _ H). simpl.
  unfold build_payload, dict_get, attach_errors.
  by rewrite Hdata, Hevent, Herrs.
Qed.

(** C6, as the code has it: for a returned payload whose event value had
    no key "errors" of its own, the payload has the key "errors" exactly
    when the first emitted result carries a non-empty error list; then the
    payload is the event mapping with the formatted errors stored under
    "errors", every other key unchanged; otherwise it is the event value
    itself. *)
Theorem errors_key_iff_errors payload_instance rest d event_payload payload :
  executes_to backend engine event_type subscribable_object
              subscription_query request app
              (Observable (payload_instance :: rest)) →
  data payload_instance = Some d →
  get_event_payload (dict_get d "event") = Return event_payload →
  has_key event_payload "errors" = false →
  result (generate_payload_from_subscription backend engine event_type
            subscribable_object subscription_query request app)
    = Return payload →
  (has_key payload "errors" = true
   ↔ errors_truthy (errors payload_instance) = true)
  ∧ (errors_truthy (errors payload_instance) = true →
     ∃ fields formatted,
       event_payload = VDict fields
       ∧ formatted
         = VList (map (λ error, format_error engine error
                                  [GraphQLError; PermissionDenied])
                      (errors_list (errors payload_instance)))
       ∧ payload = VDict (<["errors" := formatted]> fields)
       ∧ ∀ key, key ≠ "errors" →
           dict_get (<["errors" := formatted]> fields) key
           = dict_get fields key)
  ∧ (errors_truthy (errors payload_instance) = false →
     payload = event_payload).
Proof.
  intros H Hdata Hget Hfresh. rewrite (generate_emitted _ _ H). simpl.
  unfold build_payload. rewrite Hdata. simpl. rewrite Hget. simpl.
  destruct (errors_truthy (errors payload_instance)) eqn:Herrs.
  - intros (fields & -> & ->)%attach_errors_some; [| done].
    split; [| split; [| done]].
    + split; [done |]. intros _. simpl.
      apply bool_decide_eq_true. rewrite lookup_insert_eq. eauto.
    + intros _. exists fields. eexists. split; [done |]. split; [done |].
      split; [done |].
      intros key Hkey. unfold dict_get. by rewrite lookup_insert_ne.
  - rewrite attach_errors_none by done. intros [= <-].
    split; [| split; [done | done]].
    rewrite Hfresh. split; done.
Qed.

End ExecutorProperties.

(** * The module on concrete queries *)

Lemma sample_backend_raises_no_validation_error q error_dict :
  document_from_string sample_backend q ≠ Raise (ValidationError error_dict).
Proof.
  destruct q as [| s | ast]; simpl; try discriminate.
  unfold sample_parse.
  repeat (match goal with
          | |- context [String.eqb s ?lit] => destruct (String.eqb s lit)
          end; simpl; try discriminate).
Qed.

Lemma validate_subscription_query_iff_rule_witness :
  (validate_subscription_query sample_backend
     (QStr "subscription { event { id } }") = Return true
   ↔ single_subscription_rule (definitions (document_ast event_id_document)))
  ∧ (validate_subscription_query sample_backend
       (QStr "subscription { event { id } }") = Return false
     ↔ ¬ single_subscription_rule
           (definitions (document_ast event_id_document))).
Proof.
  apply (validate_subscription_query_iff_rule sample_backend
           (QStr "subscription { event { id } }") event_id_document).
  reflexivity.
Defined.

(** The example of the specification: two subscription operations. *)
Example two_subscriptions_are_rejected :
  validate_subscription_query sample_backend
    (QStr "subscription { a } subscription { b }") = Return false.
Proof. reflexivity. Qed.

Example query_operation_is_rejected :
  validate_subscription_query sample_backend
    (QStr "query { event { id } }") = Return false.
Proof. reflexivity. Qed.

Lemma validate_subscription_query_syntax_error_witness :
  validate_subscription_query sample_backend
    (QStr "subscription { event { id ") = Return false.
Proof.
  apply (validate_subscription_query_syntax_error sample_backend).
  reflexivity.
Defined.

(** Two subscription operations: the validator says false, the wrapper
    raises. *)
Lemma validate_query_raises_iff_witness :
  (validate_query sample_backend "invalid"
     (QStr "subscription { a } subscription { b }")
   = Raise (ValidationError
              [("query", FieldError "Subscription query is not valid" "invalid")])
   ↔ truthy (QStr "subscription { a } subscription { b }") = true
     ∧ validate_subscription_query sample_backend
         (QStr "subscription { a } subscription { b }") = Return false)
  ∧ (truthy (QStr "subscription { a } subscription { b }") = false →
     validate_query sample_backend "invalid"
       (QStr "subscription { a } subscription { b }") = Return tt).
Proof.
  apply (validate_query_raises_iff sample_backend "invalid").
  exact sample_backend_raises_no_validation_error.
Defined.

Example validate_query_raises_on_two_subscriptions :
  validate_query sample_backend "invalid"
    (QStr "subscription { a } subscription { b }")
  = Raise (ValidationError
             [("query", FieldError "Subscription query is not valid" "invalid")]).
Proof. reflexivity. Qed.

(** C3, as stated, fails: the validator itself has no guard for the empty
    string or None.  With the core backend the empty string is a syntax
    error, so the validator returns false, and None fails the backend's
    assertion, which the validator does not catch. *)
Lemma validate_subscription_query_empty_is_rejected :
  validate_subscription_query sample_backend (QStr "") = Return false
  ∧ validate_subscription_query sample_backend (QStr "") ≠ Return true
  ∧ validate_subscription_query sample_backend QNone = Raise AssertionError.
Proof. repeat split; try reflexivity. discriminate. Qed.

Lemma two_subscriptions_reach_errors :
  executes_to sample_backend sample_engine "order_created" event_42
    (QStr "subscription { a } subscription { b }") sample_request seven
    (Executed {| data := None;
                 errors := Some ["Must provide a single subscription."] |}).
Proof. do 2 eexists. repeat split; reflexivity. Qed.

Lemma top_level_errors_give_no_payload_witness :
  result (generate_payload_from_subscription sample_backend sample_engine
            "order_created" event_42
            (QStr "subscription { a } subscription { b }")
            sample_request seven) = Return VNone
  ∧ ∃ warning,
      logged (generate_payload_from_subscription sample_backend sample_engine
                "order_created" event_42
                (QStr "subscription { a } subscription { b }")
                sample_request seven) = [warning]
      ∧ msg warning
        = "Unable to build a payload for subscription. "
          ++ String "010"%char "error: "
          ++ str_errors sample_engine
               (Some ["Must provide a single subscription."])
      ∧ extra_query warning = QStr "subscription { a } subscription { b }"
      ∧ extra_app warning = pk <$> seven.
Proof.
  apply (top_level_errors_give_no_payload string value HttpRequest
           sample_backend sample_engine "order_created" event_42
           (QStr "subscription { a } subscription { b }") sample_request seven
           {| data := None;
              errors := Some ["Must provide a single subscription."] |}).
  exact two_subscriptions_reach_errors.
Defined.

Lemma event_id_reaches emitted :
  executes_to sample_backend (emitting_engine emitted) "order_created"
    event_42 (QStr "subscription { event { id } }") sample_request seven
    (Observable emitted).
Proof. do 2 eexists. repeat split; reflexivity. Qed.

Lemma no_emitted_result_gives_no_payload_witness :
  result (generate_payload_from_subscription sample_backend
            (emitting_engine []) "order_created" event_42
            (QStr "subscription { event { id } }") sample_request seven)
    = Return VNone
  ∧ result (generate_payload_from_subscription sample_backend
              (emitting_engine []) "order_created" event_42
              (QStr "subscription { event { id } }") sample_request seven)
    ≠ Return (VDict ∅)
  ∧ ∃ warning,
      logged (generate_payload_from_subscription sample_backend
                (emitting_engine []) "order_created" event_42
                (QStr "subscription { event { id } }") sample_request seven)
        = [warning]
      ∧ msg warning = "Subscription did not return a payload."
      ∧ extra_query warning = QStr "subscription { event { id } }"
      ∧ extra_app warning = pk <$> seven.
Proof.
  apply (no_emitted_result_gives_no_payload string value HttpRequest
           sample_backend (emitting_engine []) "order_created" event_42
           (QStr "subscription { event { id } }") sample_request seven).
  exact (event_id_reaches []).
Defined.

Lemma order_query_reaches :
  executes_to sample_backend sample_engine "order_created" event_42
    (QStr "subscription { order { id } }") sample_request None
    (Observable [order_result]).
Proof. do 2 eexists. repeat split; reflexivity. Qed.

Lemma event_query_reaches :
  executes_to sample_backend sample_engine "order_created" event_42
    (QStr "subscription { event { id } }") sample_request None
    (Observable [event_id_result]).
Proof. do 2 eexists. repeat split; reflexivity. Qed.

Lemma aliased_query_reaches :
  executes_to sample_backend sample_engine "order_created" event_42
    (QStr "subscription { event { errors: id } }") sample_request None
    (Observable [aliased_result]).
Proof. do 2 eexists. repeat split; reflexivity. Qed.

(** A subscription that selects [order]: the engine emits data keyed by
    "order", and the call returns None. *)
Lemma payload_is_read_from_event_key_witness :
  result (generate_payload_from_subscription sample_backend sample_engine
            "order_created" event_42
            (QStr "subscription { order { id } }") sample_request None)
  = Return VNone.
Proof.
  apply (payload_is_read_from_event_key string value HttpRequest
           sample_backend sample_engine "order_created" event_42
           (QStr "subscription { order { id } }") sample_request None
           order_result [] {[ "order" := VDict {[ "id" := VStr "42" ]} ]}).
  - exact order_query_reaches.
  - reflexivity.
  - reflexivity.
  - reflexivity.
Defined.

(** The example of the specification: [subscription { event { id } }] on the
    event {id: "42"} gives {"id": "42"}, a payload without the key
    "errors". *)
Lemma payload_is_the_event_value_witness :
  result (generate_payload_from_subscription sample_backend sample_engine
            "order_created" event_42
            (QStr "subscription { event { id } }") sample_request None)
  = Return (VDict {[ "id" := VStr "42" ]})
  ∧ has_key (VDict {[ "id" := VStr "42" ]}) "errors" = false.
Proof.
  split; [| reflexivity].
  apply (payload_is_the_event_value string value HttpRequest
           sample_backend sample_engine "order_created" event_42
           (QStr "subscription { event { id } }") sample_request None
           event_id_result [] {[ "event" := event_42 ]} event_42).
  - exact event_query_reaches.
  - reflexivity.
  - reflexivity.
  - reflexivity.
  - reflexivity.
Defined.

(** C1, as stated, fails on its own example: the payload is {"id": "42"},
    which has no key "event"; it is not {"event": {"id": "42"}}. *)
Lemma payload_is_not_keyed_by_event :
  result (generate_payload_from_subscription sample_backend sample_engine
            "order_created" event_42
            (QStr "subscription { event { id } }") sample_request None)
  = Return (VDict {[ "id" := VStr "42" ]})
  ∧ result (generate_payload_from_subscription sample_backend sample_engine
              "order_created" event_42
              (QStr "subscription { event { id } }") sample_request None)
    ≠ Return (VDict {[ "event" := VDict {[ "id" := VStr "42" ]} ]}).
Proof.
  split; [reflexivity |]. intros Heq.
  apply (f_equal (λ o, match o with
                       | Return payload => has_key payload "event"
                       | Raise _ => false
                       end)) in Heq.
  vm_compute in Heq. discriminate Heq.
Qed.


Example deferred_event_payload :
  result (generate_payload_from_subscription sample_backend
            (emitting_engine [deferred_result]) "order_created" event_42
            (QStr "subscription { event { id } }") sample_request seven)
  = Return event_42.
Proof. reflexivity. Qed.

(** C6, as stated, fails: a field aliased to [errors] puts the key in the
    payload although the emitted result carries no errors. *)
Lemma errors_key_without_errors :
  executes_to sample_backend sample_engine "order_created" event_42
    (QStr "subscription { event { errors: id } }") sample_request None
    (Observable [aliased_result])
  ∧ errors_truthy (errors aliased_result) = false
  ∧ result (generate_payload_from_subscription sample_backend sample_engine
              "order_created" event_42
              (QStr "subscription { event { errors: id } }")
              sample_request None)
    = Return (VDict {[ "errors" := VStr "42" ]})
  ∧ has_key (VDict {[ "errors" := VStr "42" ]}) "errors" = true.
Proof.
  split; [exact aliased_query_reaches |]. repeat split; reflexivity.
Qed.

(** A field refused next to one that succeeded: the payload keeps [id] and
    [secret] and gains the formatted error under "errors". *)
Lemma errors_key_iff_errors_witness :
  (has_key
     (VDict (<["errors" :=
                 VList [VDict {[ "message" :=
                   VStr "You do not have permission to read secret." ]}] ]>
               denied_fields)) "errors" = true
   ↔ errors_truthy (errors denied_result) = true)
  ∧ result (generate_payload_from_subscription sample_backend
              (emitting_engine [denied_result]) "order_created" event_42
              (QStr "subscription { event { id } }") sample_request seven)
    = Return
        (VDict (<["errors" :=
                    VList [VDict {[ "message" :=
                      VStr "You do not have permission to read secret." ]}] ]>
                  denied_fields)).
Proof.
  split; [| reflexivity].
  apply (errors_key_iff_errors string value HttpRequest
           sample_backend (emitting_engine [denied_result])
           "order_created" event_42
           (QStr "subscription { event { id } }") sample_request seven
           denied_result []
           {[ "event" := VDict denied_fields ]} (VDict denied_fields)).
  - exact (event_id_reaches [denied_result]).
  - reflexivity.
  - reflexivity.
  - reflexivity.
  - reflexivity.
Defined.

(** * Further properties of the validator *)

Lemma filter_count_permutation {A} (f : A → bool) (l l' : list A) :
  l ≡ₚ l' → length (List.filter f l) = length (List.filter f l').
Proof.
  induction 1 as [| x l l' _ IH | x y l | l l' l'' _ IH1 _ IH2]; simpl.
  - done.
  - destruct (f x); simpl; by rewrite IH.
  - by destruct (f x), (f y).
  - by rewrite IH1.
Qed.

Lemma check_definitions_without_fragments defs : ∀ subscriptions,
  check_definitions (List.filter non_fragment defs) subscriptions
  = check_definitions defs subscriptions.
Proof.
  induction defs as [| d defs IH]; intros subscriptions; [done |].
  destruct d as [name tc ss | operation name ss | kind]; simpl.
  - apply IH.
  - destruct (String.eqb operation "subscription"); [| done].
    destruct (Nat.eqb (length (selections ss)) 1); simpl; [apply IH | done].
  - done.
Qed.

(** X1: fragment definitions play no part in the verdict: a document and the
    same document with its fragment definitions left out are accepted or
    rejected alike. *)
Theorem fragments_do_not_count document :
  check_document_is_single_subscription
    {| document_ast :=
         {| definitions :=
              List.filter non_fragment
                          (definitions (document_ast document)) |} |}
  = check_document_is_single_subscription document.
Proof.
  unfold check_document_is_single_subscription. simpl.
  apply check_definitions_without_fragments.
Qed.

(** X2: the verdict does not depend on the order of the definitions. *)
Theorem verdict_ignores_order document document' :
  definitions (document_ast document)
    ≡ₚ definitions (document_ast document') →
  check_document_is_single_subscription document
  = check_document_is_single_subscription document'.
Proof.
  intros Hperm.
  assert (Hiff : check_document_is_single_subscription document = true
                 ↔ check_document_is_single_subscription document' = true).
  { unfold check_document_is_single_subscription.
    rewrite !check_definitions_spec.
    rewrite (filter_count_permutation _ _ _ Hperm).
    split; intros [Hall Hone]; (split; [| done]).
    - by apply (Permutation_Forall Hperm).
    - by apply (Permutation_Forall (Permutation_sym Hperm)). }
  destruct (check_document_is_single_subscription document),
           (check_document_is_single_subscription document');
    try done.
  - symmetry. by apply Hiff.
  - by apply Hiff.
Qed.

Lemma non_fragments_are_the_subscriptions defs :
  Forall (λ d, is_fragment d || is_single_selection_subscription d = true) defs →
  List.filter non_fragment defs
  = List.filter is_single_selection_subscription defs.
Proof.
  induction 1 as [| d defs Hd _ IH]; [done |]. simpl. rewrite IH.
  destruct d as [name tc ss | operation name ss | kind]; simpl in *; try done.
  by rewrite Hd.
Qed.

(** X3: an accepted document has, fragments apart, exactly one definition,
    and that one is a subscription operation whose selection set holds
    exactly one selection. *)
Theorem accepted_document_shape document :
  check_document_is_single_subscription document = true →
  ∃ name selection,
    List.filter non_fragment (definitions (document_ast document))
    = [OperationDefinition "subscription" name (mkSelectionSet [selection])].
Proof.
  unfold check_document_is_single_subscription.
  rewrite check_definitions_spec. simpl. intros [Hall Hone].
  rewrite (non_fragments_are_the_subscriptions _ Hall).
  destruct (List.filter is_single_selection_subscription
              (definitions (document_ast document)))
    as [| d [| d' rest]] eqn:Hfilter; try discriminate.
  assert (Hd : is_single_selection_subscription d = true).
  { apply (proj1 (List.filter_In is_single_selection_subscription d
                    (definitions (document_ast document)))).
    rewrite Hfilter. by left. }
  apply is_single_selection_subscription_inv in Hd
    as (name & [sels] & -> & Hlen).
  simpl in Hlen. destruct sels as [| selection [| ? ?]]; try discriminate.
  eauto.
Qed.

(** X4: a document with no operation at all, be it empty or made of
    fragment definitions only, is rejected. *)
Theorem fragments_alone_are_rejected document :
  Forall (λ d, is_fragment d = true) (definitions (document_ast document)) →
  check_document_is_single_subscription document = false.
Proof.
  intros Hfrag.
  destruct (check_document_is_single_subscription document) eqn:Hcheck;
    [| done].
  apply accepted_document_shape in Hcheck as (name & selection & Hshape).
  assert (Hin : OperationDefinition "subscription" name
                  (mkSelectionSet [selection])
                ∈ definitions (document_ast document)).
  { apply list_elem_of_In.
    apply (proj1 (List.filter_In non_fragment _ _)).
    rewrite Hshape. by left. }
  rewrite Forall_forall in Hfrag. by specialize (Hfrag _ Hin).
Qed.

Section ValidatorErrors.

Variable backend : Backend.
Variable INVALID_value : string.


(** X6: validate_query returns without raising exactly when the query is
    falsy or the validator returns true. *)
Theorem validate_query_returns_iff query :
  validate_query backend INVALID_value query = Return tt
  ↔ truthy query = false
    ∨ validate_subscription_query backend query = Return true.
Proof.
  unfold validate_query.
  destruct (truthy query); simpl; [| split; auto].
  destruct (validate_subscription_query backend query) as [[|] | e]; simpl.
  - split; [by right | done].
  - split; [done | intros [? | ?]; done].
  - split; [done | intros [? | ?]; done].
Qed.

(** X7: an exception that escapes the validator escapes validate_query
    unchanged; it is not turned into the validation error. *)
Theorem validate_query_lets_exceptions_through query e :
  truthy query = true →
  validate_subscription_query backend query = Raise e →
  validate_query backend INVALID_value query = Raise e.
Proof.
  intros Htruthy Hraise. unfold validate_query.
  by rewrite Htruthy, Hraise.
Qed.

End ValidatorErrors.

(** * Further properties of the payload executor *)

Section ExecutorInvariants.

Variables Error Subscribable Context : Type.
Variable backend : Backend.
Variable engine : Engine Error Subscribable Context.

Variables (event_type : string) (subscribable_object : Subscribable).
Variables (subscription_query : query_arg) (request : HttpRequest).
Variable app : option App.

(** X8: a query that does not parse, or that the backend does not compile,
    is not a soft failure: the exception leaves the call, nothing is logged,
    and the request has not received the app. *)
Theorem failure_before_execution_is_raised e :
  parse backend subscription_query = Raise e
  ∨ (∃ ast, parse backend subscription_query = Return ast
            ∧ document_from_string backend (QAst ast) = Raise e) →
  generate_payload_from_subscription backend engine event_type
    subscribable_object subscription_query request app
  = {| result := Raise e; request_after := request; logged := [] |}.
Proof.
  unfold generate_payload_from_subscription.
  intros [Hparse | (ast & Hparse & Hdoc)]; rewrite Hparse; [done |].
  by rewrite Hdoc.
Qed.

(** X9: an exception raised by the engine itself leaves the call too, with
    nothing logged; by then the request carries the app. *)
Theorem engine_exception_is_raised ast document e :
  parse backend subscription_query = Return ast →
  document_from_string backend (QAst ast) = Return document →
  execute engine document (event_type, subscribable_object)
          (get_context_value engine (set_app request app)) = Raise e →
  generate_payload_from_subscription backend engine event_type
    subscribable_object subscription_query request app
  = {| result := Raise e;
       request_after := set_app request app;
       logged := [] |}.
Proof.
  intros Hparse Hdoc Hexec. unfold generate_payload_from_subscription.
  by rewrite Hparse, Hdoc, Hexec.
Qed.

(** X10: a call logs at most one warning; when it logs one it returns None,
    and the warning carries the query and the id of the app. *)
Theorem at_most_one_warning :
  (length (logged (generate_payload_from_subscription backend engine
                     event_type subscribable_object subscription_query
                     request app)) ≤ 1)%nat
  ∧ ∀ warning,
      warning ∈ logged (generate_payload_from_subscription backend engine
                          event_type subscribable_object subscription_query
                          request app) →
      result (generate_payload_from_subscription backend engine event_type
                subscribable_object subscription_query request app)
        = Return VNone
      ∧ extra_query warning = subscription_query
      ∧ extra_app warning = pk <$> app.
Proof.
  unfold generate_payload_from_subscription.
  destruct (parse backend subscription_query) as [ast | e]; simpl;
    [| split; [lia | by intros ? ?%elem_of_nil]].
  destruct (document_from_string backend (QAst ast)) as [document | e]; simpl;
    [| split; [lia | by intros ? ?%elem_of_nil]].
  destruct (execute engine document (event_type, subscribable_object)
              (get_context_value engine (set_app request app)))
    as [[r | [| payload_instance rest]] | e]; simpl;
    (split; [lia |]); intros warning Hin;
    try (by apply elem_of_nil in Hin);
    apply list_elem_of_singleton in Hin as ->; done.
Qed.


(** X12: only the first emitted result counts: two engines that format
    errors alike and whose observables start with the same result give the
    same run, whatever else the observables emit. *)
Theorem later_results_are_ignored
    (engine' : Engine Error Subscribable Context) payload_instance rest rest' :
  format_error engine' = format_error engine →
  executes_to backend engine event_type subscribable_object
              subscription_query request app
              (Observable (payload_instance :: rest)) →
  executes_to backend engine' event_type subscribable_object
              subscription_query request app
              (Observable (payload_instance :: rest')) →
  generate_payload_from_subscription backend engine' event_type
    subscribable_object subscription_query request app
  = generate_payload_from_subscription backend engine event_type
      subscribable_object subscription_query request app.
Proof.
  intros Hformat H H'.
  rewrite (generate_emitted _ _ _ _ _ _ _ _ _ _ _ _ H).
  rewrite (generate_emitted _ _ _ _ _ _ _ _ _ _ _ _ H').
  unfold build_payload, attach_errors. by rewrite Hformat.
Qed.

(** X13: a first result without data (data is None) makes the call raise
    AttributeError, whether or not the result carries errors. *)
Theorem missing_data_raises payload_instance rest :
  executes_to backend engine event_type subscribable_object
              subscription_query request app
              (Observable (payload_instance :: rest)) →
  data payload_instance = None →
  result (generate_payload_from_subscription backend engine event_type
            subscribable_object subscription_query request app)
  = Raise AttributeError.
Proof.
  intros H Hdata.
  rewrite (generate_emitted _ _ _ _ _ _ _ _ _ _ _ _ H). simpl.
  unfold build_payload. by rewrite Hdata.
Qed.

(** X14: errors cannot be attached to an event value that is not a mapping
    (None when the event is missing or failed, a scalar, a list): with a
    non-empty error list the call raises TypeError instead of returning. *)
Theorem errors_need_a_mapping payload_instance rest d event_payload :
  executes_to backend engine event_type subscribable_object
              subscription_query request app
              (Observable (payload_instance :: rest)) →
  data payload_instance = Some d →
  get_event_payload (dict_get d "event") = Return event_payload →
  (∀ fields, event_payload ≠ VDict fields) →
  errors_truthy (errors payload_instance) = true →
  result (generate_payload_from_subscription backend engine event_type
            subscribable_object subscription_query request app)
  = Raise TypeError.
Proof.
  intros H Hdata Hget Hshape Herrs.
  rewrite (generate_emitted _ _ _ _ _ _ _ _ _ _ _ _ H). simpl.
  unfold build_payload. rewrite Hdata. simpl. rewrite Hget. simpl.
  unfold attach_errors. rewrite Herrs.
  destruct event_payload; try done. by destruct (Hshape d0).
Qed.

(** X15: when the first result carries errors and the event value is a
    mapping, the payload is that mapping with the formatted errors, in the
    order of the result, under "errors"; a value the event had under
    "errors" is replaced, every other key keeps its value. *)
Theorem errors_replace_own_key payload_instance rest d fields :
  executes_to backend engine event_type subscribable_object
              subscription_query request app
              (Observable (payload_instance :: rest)) →
  data payload_instance = Some d →
  get_event_payload (dict_get d "event") = Return (VDict fields) →
  errors_truthy (errors payload_instance) = true →
  ∃ payload,
    result (generate_payload_from_subscription backend engine event_type
              subscribable_object subscription_query request app)
      = Return (VDict payload)
    ∧ payload !! "errors"
      = Some (VList (map (λ error, format_error engine error
                                     [GraphQLError; PermissionDenied])
                         (errors_list (errors payload_instance))))
    ∧ ∀ key, key ≠ "errors" → payload !! key = fields !! key.
Proof.
  intros H Hdata Hget Herrs.
  rewrite (generate_emitted _ _ _ _ _ _ _ _ _ _ _ _ H). simpl.
  unfold build_payload. rewrite Hdata. simpl. rewrite Hget. simpl.
  unfold attach_errors. rewrite Herrs. simpl.
  eexists. split; [done |]. split.
  - by rewrite lookup_insert_eq.
  - intros key Hkey. by rewrite lookup_insert_ne.
Qed.

(** X16: when "event" is bound to a rejected promise, the call raises the
    reason of the rejection: it neither returns nor logs. *)
Theorem rejected_promise_is_raised payload_instance rest d e :
  executes_to backend engine event_type subscribable_object
              subscription_query request app
              (Observable (payload_instance :: rest)) →
  data payload_instance = Some d →
  d !! "event" = Some (VPromise (Rejected e)) →
  generate_payload_from_subscription backend engine event_type
    subscribable_object subscription_query request app
  = {| result := Raise e;
       request_after := set_app request app;
       logged := [] |}.
Proof.
  intros H Hdata Hevent.
  rewrite (generate_emitted _ _ _ _ _ _ _ _ _ _ _ _ H).
  unfold build_payload, dict_get. by rewrite Hdata, Hevent.
Qed.

End ExecutorInvariants.

(** * Properties of the request construction *)

(** X17: the META of the dummy request follows ENABLE_SSL: the port is
    "443" with it and "80" without, HTTP_X_FORWARDED_PROTO is "https" with
    it and absent without, SERVER_NAME is the lazy host either way, and
    there is no other key. *)
Theorem meta_follows_ssl {Requestor Time : Type} (settings : Settings)
    (now : Time) (requestor : option Requestor) (sync_event : bool) :
  META (initialize_request settings now requestor sync_event) !! "SERVER_PORT"
    = Some (MetaStr (if ENABLE_SSL settings then "443" else "80"))
  ∧ META (initialize_request settings now requestor sync_event)
      !! "HTTP_X_FORWARDED_PROTO"
    = (if ENABLE_SSL settings then Some (MetaStr "https") else None)
  ∧ META (initialize_request settings now requestor sync_event)
      !! "SERVER_NAME" = Some LazyHost
  ∧ ∀ key, key ≠ "SERVER_PORT" → key ≠ "HTTP_X_FORWARDED_PROTO" →
           key ≠ "SERVER_NAME" →
           META (initialize_request settings now requestor sync_event) !! key
           = None.
Proof.
  unfold initialize_request. simpl.
  destruct (ENABLE_SSL settings); repeat split; try reflexivity;
    intros key Hport Hproto Hname;
    by rewrite ?lookup_insert_ne, lookup_singleton_ne.
Qed.

(** * The further properties on concrete inputs *)

Lemma verdict_ignores_order_witness :
  check_document_is_single_subscription
    {| document_ast :=
         {| definitions :=
              [fragment_on_event; subscription_of (event_field None "id")] |} |}
  = check_document_is_single_subscription
      {| document_ast :=
           {| definitions :=
                [subscription_of (event_field None "id");
                 fragment_on_event] |} |}.
Proof.
  apply verdict_ignores_order. simpl. apply perm_swap.
Defined.

Lemma accepted_document_shape_witness :
  ∃ name selection,
    List.filter non_fragment
      (definitions
         (document_ast
            {| document_ast :=
                 {| definitions :=
                      [fragment_on_event;
                       subscription_of (event_field None "id")] |} |}))
    = [OperationDefinition "subscription" name (mkSelectionSet [selection])].
Proof.
  apply accepted_document_shape. reflexivity.
Defined.

Lemma fragments_alone_are_rejected_witness :
  check_document_is_single_subscription
    {| document_ast := {| definitions := [fragment_on_event] |} |} = false.
Proof.
  apply fragments_alone_are_rejected. simpl.
  apply Forall_cons_2; [reflexivity | apply Forall_nil_2].
Defined.

Lemma validate_query_lets_exceptions_through_witness :
  validate_query (raising_backend AssertionError) "invalid"
    (QStr "subscription { event { id } }") = Raise AssertionError.
Proof.
  apply validate_query_lets_exceptions_through; reflexivity.
Defined.

Lemma failure_before_execution_is_raised_witness :
  generate_payload_from_subscription sample_backend sample_engine
    "order_created" event_42 (QStr "subscription { event { id ")
    sample_request seven
  = {| result := Raise GraphQLSyntaxError;
       request_after := sample_request;
       logged := [] |}.
Proof.
  apply failure_before_execution_is_raised. left. reflexivity.
Defined.

Lemma engine_exception_is_raised_witness :
  generate_payload_from_subscription sample_backend
    (raising_engine (OtherError "DatabaseError"))
    "order_created" event_42 (QStr "subscription { event { id } }")
    sample_request seven
  = {| result := Raise (OtherError "DatabaseError");
       request_after := set_app sample_request seven;
       logged := [] |}.
Proof.
  apply (engine_exception_is_raised string value HttpRequest sample_backend
           (raising_engine (OtherError "DatabaseError"))
           "order_created" event_42 (QStr "subscription { event { id } }")
           sample_request seven
           {| definitions := [subscription_of (event_field None "id")] |}
           event_id_document);
    reflexivity.
Defined.

Lemma later_results_are_ignored_witness :
  generate_payload_from_subscription sample_backend
    (emitting_engine [event_id_result; order_result])
    "order_created" event_42 (QStr "subscription { event { id } }")
    sample_request seven
  = generate_payload_from_subscription sample_backend
      (emitting_engine [event_id_result])
      "order_created" event_42 (QStr "subscription { event { id } }")
      sample_request seven.
Proof.
  apply (later_results_are_ignored string value HttpRequest sample_backend
           (emitting_engine [event_id_result])
           "order_created" event_42 (QStr "subscription { event { id } }")
           sample_request seven
           (emitting_engine [event_id_result; order_result])
           event_id_result [] [order_result]).
  - reflexivity.
  - exact (event_id_reaches [event_id_result]).
  - exact (event_id_reaches [event_id_result; order_result]).
Defined.

Lemma missing_data_raises_witness :
  result (generate_payload_from_subscription sample_backend
            (emitting_engine [no_data_result])
            "order_created" event_42 (QStr "subscription { event { id } }")
            sample_request seven)
  = Raise AttributeError.
Proof.
  apply (missing_data_raises string value HttpRequest sample_backend
           (emitting_engine [no_data_result])
           "order_created" event_42 (QStr "subscription { event { id } }")
           sample_request seven no_data_result []).
  - exact (event_id_reaches [no_data_result]).
  - reflexivity.
Defined.

Lemma errors_need_a_mapping_witness :
  result (generate_payload_from_subscription sample_backend
            (emitting_engine [null_event_result])
            "order_created" event_42 (QStr "subscription { event { id } }")
            sample_request seven)
  = Raise TypeError.
Proof.
  apply (errors_need_a_mapping string value HttpRequest sample_backend
           (emitting_engine [null_event_result])
           "order_created" event_42 (QStr "subscription { event { id } }")
           sample_request seven null_event_result []
           {[ "event" := VNone ]} VNone).
  - exact (event_id_reaches [null_event_result]).
  - reflexivity.
  - reflexivity.
  - intros fields. discriminate.
  - reflexivity.
Defined.

Lemma errors_replace_own_key_witness :
  ∃ payload,
    result (generate_payload_from_subscription sample_backend
              (emitting_engine [aliased_denied_result])
              "order_created" event_42 (QStr "subscription { event { id } }")
              sample_request seven)
      = Return (VDict payload)
    ∧ payload !! "errors"
      = Some (VList (map (λ error,
                            format_error
                              (emitting_engine [aliased_denied_result]) error
                              [GraphQLError; PermissionDenied])
                         (errors_list (errors aliased_denied_result))))
    ∧ ∀ key, key ≠ "errors" →
        payload !! key
        = (<["id" := VStr "42"]> {[ "errors" := VStr "mine" ]} : gmap string value)
            !! key.
Proof.
  apply (errors_replace_own_key string value HttpRequest sample_backend
           (emitting_engine [aliased_denied_result])
           "order_created" event_42 (QStr "subscription { event { id } }")
           sample_request seven aliased_denied_result []
           {[ "event" := VDict (<["id" := VStr "42"]>
                                  {[ "errors" := VStr "mine" ]}) ]}).
  - exact (event_id_reaches [aliased_denied_result]).
  - reflexivity.
  - reflexivity.
  - reflexivity.
Defined.

Lemma rejected_promise_is_raised_witness :
  generate_payload_from_subscription sample_backend
    (emitting_engine [rejected_result])
    "order_created" event_42 (QStr "subscription { event { id } }")
    sample_request seven
  = {| result := Raise (OtherError "DoesNotExist");
       request_after := set_app sample_request seven;
       logged := [] |}.
Proof.
  apply (rejected_promise_is_raised string value HttpRequest sample_backend
           (emitting_engine [rejected_result])
           "order_created" event_42 (QStr "subscription { event { id } }")
           sample_request seven rejected_result []
           {[ "event" := VPromise (Rejected (OtherError "DoesNotExist")) ]}).
  - exact (event_id_reaches [rejected_result]).
  - reflexivity.
  - reflexivity.
Defined.
